(** * A shallow embedding of the fitness-tracker module [homework.py]

    The module turns the raw readings of one workout (running, sports
    walking or swimming) into distance, mean speed, spent calories and a
    one-line report.

    ** Modelling conventions

    - Python numbers ([int] and [float]) are embedded as exact rationals [Q].
      The operators [*], [+] and [** 2] are total on them; true division [/]
      raises [ZeroDivisionError] on a zero divisor and is therefore a
      computation in the [result] monad below.  Rounding, overflow and the
      non-finite values of binary floating point are outside this model: a
      statement proved here is a statement about the exact value of the
      expression the code evaluates.  Numbers are compared with [==], the
      equality of the values, as Python's [==] does.
    - Python exceptions are the constructors of [exception]; a call that may
      raise returns a [result].  Sub-expressions are sequenced in Python's
      left-to-right evaluation order.
    - An instance of a class of the [Training] hierarchy is a value of the
      inductive type [training], one constructor per class, whose arguments
      are the dataclass fields in declaration order.  Class attributes that a
      subclass redefines ([LEN_STEP], [MIN_IN_HOUR]) are looked up through the
      instance, as [self.LEN_STEP] is; methods that a subclass overrides are
      dispatched on the constructor.
    - [str] values are Rocq strings holding the UTF-8 encoding of the text. *)

From Stdlib Require Import ZArith QArith Qround Qabs Qfield Lqa.
From Stdlib Require Import Bool String Ascii List Lia DecimalString.
Import ListNotations.

Open Scope Q_scope.
Open Scope string_scope.

(** ** Exceptions and fallible computations *)

Inductive exception : Type :=
| ValueError (msg : string)
| TypeError
| ZeroDivisionError
| NotImplementedError.

Inductive result (A : Type) : Type :=
| Ok (a : A)
| Raise (e : exception).

Arguments Ok {A} a.
Arguments Raise {A} e.

Definition bind {A B : Type} (m : result A) (k : A -> result B) : result B :=
  match m with
  | Ok a => k a
  | Raise e => Raise e
  end.

Notation "x <- m ;; k" := (bind m (fun x => k))
  (at level 61, m at next level, right associativity).

(** Python's true division [a / b]. *)
Definition truediv (a b : Q) : result Q :=
  if Qeq_bool b 0 then Raise ZeroDivisionError else Ok (a / b).

(** ** Formatting with the specification [.3f] *)

(** The integer nearest to [q], a tie going to the even neighbour. *)
Definition round_half_even (q : Q) : Z :=
  let f := Qfloor q in
  match Qcompare (q - inject_Z f) (1 # 2) with
  | Lt => f
  | Gt => (f + 1)%Z
  | Eq => if Z.even f then f else (f + 1)%Z
  end.

(** The character of one decimal digit. *)
Definition digit (n : Z) : ascii :=
  ascii_of_nat (48 + Z.to_nat (n mod 10)).

(** [format(x, '.3f')]: sign, integer part, a point and three digits. *)
Definition format_3f (x : Q) : string :=
  let n := round_half_even (Qabs x * 1000) in
  (if Qlt_le_dec x 0 then "-" else "")
  ++ NilZero.string_of_uint (N.to_uint (Z.to_N (n / 1000)))
  ++ "."
  ++ String (digit (n / 100)) (String (digit (n / 10)) (String (digit n) "")).

(** ** class InfoMessage *)

Module InfoMessage.

Record t : Type := mk
  { training_type : string;
    duration : Q;
    distance : Q;
    speed : Q;
    calories : Q }.

Definition get_message (self : t) : string :=
  "Тип тренировки: " ++ training_type self ++ "; "
  ++ "Длительность: " ++ format_3f (duration self) ++ " ч.; "
  ++ "Дистанция: " ++ format_3f (distance self) ++ " км; "
  ++ "Ср. скорость: " ++ format_3f (speed self) ++ " км/ч; "
  ++ "Потрачено ккал: " ++ format_3f (calories self) ++ ".".

End InfoMessage.

(** ** class Training and its subclasses *)

Inductive training : Type :=
| Training (action duration weight : Q)
| Running (action duration weight : Q)
| SportsWalking (action duration weight height : Q)
| Swimming (action duration weight length_pool count_pool : Q).

(** [type(self).__name__] *)
Definition type_name (self : training) : string :=
  match self with
  | Training _ _ _ => "Training"
  | Running _ _ _ => "Running"
  | SportsWalking _ _ _ _ => "SportsWalking"
  | Swimming _ _ _ _ _ => "Swimming"
  end.

(** The fields declared by the base class. *)
Definition action (self : training) : Q :=
  match self with
  | Training a _ _ | Running a _ _ | SportsWalking a _ _ _
  | Swimming a _ _ _ _ => a
  end.

Definition duration (self : training) : Q :=
  match self with
  | Training _ d _ | Running _ d _ | SportsWalking _ d _ _
  | Swimming _ d _ _ _ => d
  end.

Definition weight (self : training) : Q :=
  match self with
  | Training _ _ w | Running _ _ w | SportsWalking _ _ w _
  | Swimming _ _ w _ _ => w
  end.

(** Class attributes.  [Swimming] redefines [LEN_STEP]; [SportsWalking]
    declares [MIN_IN_HOUR] again with the value of the base class. *)
Definition M_IN_KM : Q := 1000.

Definition LEN_STEP (self : training) : Q :=
  match self with
  | Swimming _ _ _ _ _ => 1.38
  | _ => 0.65
  end.

Definition MIN_IN_HOUR (self : training) : Q :=
  match self with
  | SportsWalking _ _ _ _ => 60
  | _ => 60
  end.

Definition CALORIES_MEAN_SPEED_MULTIPLIER : Q := 18.
Definition CALORIES_MEAN_SPEED_SHIFT : Q := 1.79.

Definition SportsWalking_COEFF_1 : Q := 0.035.
Definition SportsWalking_COEFF_2 : Q := 0.029.
Definition SM_M : Q := 100.
Definition M_SEC : Q := 0.278.

Definition Swimming_COEFF_1 : Q := 1.1.
Definition Swimming_COEFF_2 : Q := 2.

(** [Training.get_distance], inherited by every subclass. *)
Definition get_distance (self : training) : result Q :=
  truediv (action self * LEN_STEP self) M_IN_KM.

(** [Training.get_mean_speed] *)
Definition Training_get_mean_speed (self : training) : result Q :=
  d <- get_distance self ;;
  truediv d (duration self).

(** [Swimming.get_mean_speed] *)
Definition Swimming_get_mean_speed
    (self : training) (length_pool count_pool : Q) : result Q :=
  x <- truediv (length_pool * count_pool) M_IN_KM ;;
  truediv x (duration self).

(** [self.get_mean_speed()], resolved through the class of [self]. *)
Definition get_mean_speed (self : training) : result Q :=
  match self with
  | Swimming _ _ _ length_pool count_pool =>
      Swimming_get_mean_speed self length_pool count_pool
  | _ => Training_get_mean_speed self
  end.

(** [Running.get_spent_calories] *)
Definition Running_get_spent_calories (self : training) : result Q :=
  v <- get_mean_speed self ;;
  x <- truediv
         ((CALORIES_MEAN_SPEED_MULTIPLIER * v + CALORIES_MEAN_SPEED_SHIFT)
          * weight self)
         M_IN_KM ;;
  Ok (x * (duration self * MIN_IN_HOUR self)).

(** [SportsWalking.get_spent_calories] *)
Definition SportsWalking_get_spent_calories
    (self : training) (height : Q) : result Q :=
  v <- get_mean_speed self ;;
  h <- truediv height SM_M ;;
  r <- truediv ((v * M_SEC) ^ 2) h ;;
  Ok ((SportsWalking_COEFF_1 * weight self
       + r * SportsWalking_COEFF_2 * weight self)
      * (duration self * MIN_IN_HOUR self)).

(** [Swimming.get_spent_calories] *)
Definition Swimming_get_spent_calories (self : training) : result Q :=
  v <- get_mean_speed self ;;
  Ok ((v + Swimming_COEFF_1) * Swimming_COEFF_2 * weight self
      * duration self).

(** [self.get_spent_calories()]; the base class raises. *)
Definition get_spent_calories (self : training) : result Q :=
  match self with
  | Training _ _ _ => Raise NotImplementedError
  | Running _ _ _ => Running_get_spent_calories self
  | SportsWalking _ _ _ height => SportsWalking_get_spent_calories self height
  | Swimming _ _ _ _ _ => Swimming_get_spent_calories self
  end.

(** [Training.show_training_info]: the arguments of the constructor are
    evaluated from left to right. *)
Definition show_training_info (self : training) : result InfoMessage.t :=
  d <- get_distance self ;;
  v <- get_mean_speed self ;;
  c <- get_spent_calories self ;;
  Ok (InfoMessage.mk (type_name self) (duration self) d v c).

(** ** read_package *)

(** The constructors generated by [@dataclass], applied to [*data]: a wrong
    number of positional arguments raises [TypeError].  [Running] inherits
    the constructor of [Training]. *)
Definition Training_init (data : list Q) : result training :=
  match data with
  | [a; d; w] => Ok (Training a d w)
  | _ => Raise TypeError
  end.

Definition Running_init (data : list Q) : result training :=
  match data with
  | [a; d; w] => Ok (Running a d w)
  | _ => Raise TypeError
  end.

Definition SportsWalking_init (data : list Q) : result training :=
  match data with
  | [a; d; w; h] => Ok (SportsWalking a d w h)
  | _ => Raise TypeError
  end.

Definition Swimming_init (data : list Q) : result training :=
  match data with
  | [a; d; w; l; c] => Ok (Swimming a d w l c)
  | _ => Raise TypeError
  end.

Definition storage_data : list (string * (list Q -> result training)) :=
  [ ("SWM", Swimming_init); ("RUN", Running_init);
    ("WLK", SportsWalking_init) ].

(** Lookup in a dictionary given by its items. *)
Fixpoint dict_get {V : Type} (d : list (string * V)) (k : string) : option V :=
  match d with
  | [] => None
  | (k', v) :: d' => if String.eqb k k' then Some v else dict_get d' k
  end.

Definition read_package (workout_type : string) (data : list Q)
  : result training :=
  match dict_get storage_data workout_type with
  | None => Raise (ValueError "Неподдерживаемый тип тренировки")
  | Some init => init data
  end.

(** ** main and the script *)

(** [main] appends one line to the standard output. *)
Definition main (t : training) (stdout : list string)
  : result (list string) :=
  info <- show_training_info t ;;
  Ok (stdout ++ [InfoMessage.get_message info])%list.

Definition packages : list (string * list Q) :=
  [ ("SWM", [720; 1; 80; 25; 40]);
    ("RUN", [15000; 1; 75]);
    ("WLK", [9000; 1; 75; 180]) ].

(** The loop of the script; an exception that is not caught ends the run. *)
Fixpoint run (ps : list (string * list Q)) (stdout : list string)
  : result (list string) :=
  match ps with
  | [] => Ok stdout
  | (workout_type, data) :: ps' =>
      t <- read_package workout_type data ;;
      out <- main t stdout ;;
      run ps' out
  end.

(** * The vocabulary of the statements *)

(** Two outcomes are the same when they raise the same exception or return
    numbers of the same value. *)
Definition same_outcome (m1 m2 : result Q) : Prop :=
  match m1, m2 with
  | Ok a, Ok b => a == b
  | Raise e1, Raise e2 => e1 = e2
  | _, _ => False
  end.

(** The dataclass fields of an instance, in declaration order. *)
Definition fields (t : training) : list Q :=
  match t with
  | Training a d w => [a; d; w]
  | Running a d w => [a; d; w]
  | SportsWalking a d w h => [a; d; w; h]
  | Swimming a d w l c => [a; d; w; l; c]
  end.

(** The instances of the classes registered in [storage_data]. *)
Definition registered (t : training) : Prop :=
  match t with
  | Training _ _ _ => False
  | _ => True
  end.

(** The number of positional arguments that the class registered under
    each code takes. *)
Definition required_positional : list (string * nat) :=
  [ ("SWM", 5%nat); ("RUN", 3%nat); ("WLK", 4%nat) ].

(** A registered instance with a non-zero duration and, for walking, a
    non-zero height. *)
Definition defined_metrics (t : training) : Prop :=
  match t with
  | Training _ _ _ => False
  | Running _ d _ => ~ d == 0
  | SportsWalking _ d _ h => ~ d == 0 /\ ~ h == 0
  | Swimming _ d _ _ _ => ~ d == 0
  end.

(** A registered instance with a positive duration and, for walking, a
    positive height. *)
Definition positive_measurements (t : training) : Prop :=
  match t with
  | Training _ _ _ => False
  | Running _ d _ => 0 < d
  | SportsWalking _ d _ h => 0 < d /\ 0 < h
  | Swimming _ d _ _ _ => 0 < d
  end.

(** Every metric is computed and the summary is built from them. *)
Definition all_defined (t : training) : Prop :=
  exists dist v c,
    get_distance t = Ok dist
    /\ get_mean_speed t = Ok v
    /\ get_spent_calories t = Ok c
    /\ show_training_info t
       = Ok (InfoMessage.mk (type_name t) (duration t) dist v c).

Definition is_digit (c : ascii) : bool :=
  ((48 <=? nat_of_ascii c) && (nat_of_ascii c <=? 57))%nat.

Fixpoint all_digits (s : string) : bool :=
  match s with
  | "" => true
  | String c s' => is_digit c && all_digits s'
  end.

Fixpoint mem_char (c : ascii) (s : string) : bool :=
  match s with
  | "" => false
  | String c' s' => Ascii.eqb c c' || mem_char c s'
  end.

(** A number in fixed notation with three decimals: an optional minus
    sign, at least one digit, a point and exactly three digits. *)
Definition fixed_3 (s : string) : Prop :=
  exists sign int frac,
    s = sign ++ int ++ "." ++ frac
    /\ (sign = "" \/ sign = "-")
    /\ int <> "" /\ all_digits int = true
    /\ String.length frac = 3%nat /\ all_digits frac = true.

(** A text without a line feed. *)
Definition single_line (s : string) : Prop := mem_char "010"%char s = false.

(** The outcome of the package [("RUN", [15000, 1, 75])]: the distance and
    the mean speed are [9.75] and the calories agree with [cal] to three
    decimal places. *)
Definition running_package_outcome (cal : Q) : Prop :=
  exists t dist v c,
    read_package "RUN" [15000; 1; 75] = Ok t
    /\ get_distance t = Ok dist /\ dist == 15000 * 0.65 / 1000
    /\ dist == 9.75
    /\ get_mean_speed t = Ok v /\ v == 9.75 / 1 /\ v == 9.75
    /\ get_spent_calories t = Ok c
    /\ c == (18 * 9.75 + 1.79) * 75 / 1000 * (1 * 60)
    /\ Qabs (c - cal) < 0.0005.

(** The code under which the class of an instance is registered in
    [storage_data]; the base class is not registered. *)
Definition code_of (t : training) : option string :=
  match t with
  | Training _ _ _ => None
  | Running _ _ _ => Some "RUN"
  | SportsWalking _ _ _ _ => Some "WLK"
  | Swimming _ _ _ _ _ => Some "SWM"
  end.

(** The instance with another weight, the other fields unchanged. *)
Definition with_weight (t : training) (w : Q) : training :=
  match t with
  | Training a d _ => Training a d w
  | Running a d _ => Running a d w
  | SportsWalking a d _ h => SportsWalking a d w h
  | Swimming a d _ l c => Swimming a d w l c
  end.

(** A registered instance whose counts and lengths are not negative and
    whose duration, weight and, for walking, height are positive. *)
Definition plausible (t : training) : Prop :=
  match t with
  | Training _ _ _ => False
  | Running a d w => 0 <= a /\ 0 < d /\ 0 < w
  | SportsWalking a d w h => 0 <= a /\ 0 < d /\ 0 < w /\ 0 < h
  | Swimming a d w l c => 0 <= a /\ 0 < d /\ 0 < w /\ 0 <= l /\ 0 <= c
  end.

(** The loop of the script with the standard output kept when an exception
    ends the run: the lines printed so far and the exception, if any.  A
    package that fails prints nothing, [print] being the last step of
    [main]. *)
Fixpoint run_stdout (ps : list (string * list Q)) (stdout : list string)
  : list string * option exception :=
  match ps with
  | [] => (stdout, None)
  | (workout_type, data) :: ps' =>
      match read_package workout_type data with
      | Raise e => (stdout, Some e)
      | Ok t =>
          match main t stdout with
          | Raise e => (stdout, Some e)
          | Ok out => run_stdout ps' out
          end
      end
  end.

(** The line that one package adds to the standard output. *)
Definition report_of (p : string * list Q) : result string :=
  t <- read_package (fst p) (snd p) ;;
  info <- show_training_info t ;;
  Ok (InfoMessage.get_message info).

(** The instance with another action count, the other fields unchanged. *)
Definition with_action (t : training) (a : Q) : training :=
  match t with
  | Training _ d w => Training a d w
  | Running _ d w => Running a d w
  | SportsWalking _ d w h => SportsWalking a d w h
  | Swimming _ d w l c => Swimming a d w l c
  end.

(** The exceptions that the module raises itself, by a [raise] statement:
    [ValueError] in [read_package] and [NotImplementedError] in
    [Training.get_spent_calories].  [TypeError] and [ZeroDivisionError] come
    from the interpreter, in a call with a wrong number of arguments and in
    a division; no statement of the module checks for them. *)
Definition raised_by_module (e : exception) : bool :=
  match e with
  | ValueError _ | NotImplementedError => true
  | TypeError | ZeroDivisionError => false
  end.

(** * Properties *)

(** ** True division *)

Lemma truediv_nonzero (a b : Q) : ~ b == 0 -> truediv a b = Ok (a / b).
Proof.
  intros Hb. unfold truediv.
  destruct (Qeq_bool b 0) eqn:E; [|reflexivity].
  apply Qeq_bool_eq in E. contradiction.
Qed.

Lemma truediv_zero (a b : Q) : b == 0 -> truediv a b = Raise ZeroDivisionError.
Proof.
  intros Hb. unfold truediv.
  apply Qeq_bool_iff in Hb. rewrite Hb. reflexivity.
Qed.

Lemma M_IN_KM_nonzero : ~ M_IN_KM == 0.
Proof. discriminate. Qed.

Lemma SM_M_nonzero : ~ SM_M == 0.
Proof. discriminate. Qed.

Lemma positive_nonzero (x : Q) : 0 < x -> ~ x == 0.
Proof. intros H E. rewrite E in H. exact (Qlt_irrefl 0 H). Qed.

Lemma height_in_metres_nonzero (h : Q) : ~ h == 0 -> ~ h / SM_M == 0.
Proof.
  intros Hh E. apply Hh. unfold SM_M in E.
  setoid_replace h with (h / 100 * 100) by (field; discriminate).
  rewrite E. reflexivity.
Qed.

(** ** Distance and mean speed *)

(** The distance is defined for every instance. *)
Lemma get_distance_ok (t : training) :
  get_distance t = Ok (action t * LEN_STEP t / M_IN_KM).
Proof. unfold get_distance. apply truediv_nonzero, M_IN_KM_nonzero. Qed.

Lemma Training_get_mean_speed_ok (t : training) :
  ~ duration t == 0 ->
  Training_get_mean_speed t
  = Ok (action t * LEN_STEP t / M_IN_KM / duration t).
Proof.
  intros Hd. unfold Training_get_mean_speed.
  rewrite get_distance_ok. cbn [bind]. now apply truediv_nonzero.
Qed.

Lemma Swimming_get_mean_speed_ok (t : training) (l c : Q) :
  ~ duration t == 0 ->
  Swimming_get_mean_speed t l c = Ok (l * c / M_IN_KM / duration t).
Proof.
  intros Hd. unfold Swimming_get_mean_speed.
  rewrite (truediv_nonzero _ _ M_IN_KM_nonzero). cbn [bind].
  now apply truediv_nonzero.
Qed.

Lemma get_mean_speed_zero (t : training) :
  duration t == 0 -> get_mean_speed t = Raise ZeroDivisionError.
Proof.
  intros Hd.
  destruct t; cbn [get_mean_speed];
    unfold Training_get_mean_speed, Swimming_get_mean_speed;
    rewrite ?get_distance_ok, ?(truediv_nonzero _ _ M_IN_KM_nonzero);
    cbn [bind]; now apply truediv_zero.
Qed.

(** ** Spent calories, in the shape of the source expressions *)

Lemma Running_get_spent_calories_ok (a d w : Q) :
  ~ d == 0 ->
  get_spent_calories (Running a d w)
  = Ok ((CALORIES_MEAN_SPEED_MULTIPLIER * (a * 0.65 / M_IN_KM / d)
         + CALORIES_MEAN_SPEED_SHIFT) * w / M_IN_KM * (d * 60)).
Proof.
  intros Hd.
  cbn [get_spent_calories]. unfold Running_get_spent_calories.
  cbn [get_mean_speed].
  rewrite (Training_get_mean_speed_ok (Running a d w) Hd). cbn [bind].
  rewrite (truediv_nonzero _ _ M_IN_KM_nonzero). reflexivity.
Qed.

Lemma SportsWalking_get_spent_calories_ok (a d w h : Q) :
  ~ d == 0 -> ~ h == 0 ->
  get_spent_calories (SportsWalking a d w h)
  = Ok ((SportsWalking_COEFF_1 * w
         + ((a * 0.65 / M_IN_KM / d * M_SEC) ^ 2 / (h / SM_M))
           * SportsWalking_COEFF_2 * w) * (d * 60)).
Proof.
  intros Hd Hh.
  cbn [get_spent_calories]. unfold SportsWalking_get_spent_calories.
  cbn [get_mean_speed].
  rewrite (Training_get_mean_speed_ok (SportsWalking a d w h) Hd).
  cbn [bind].
  rewrite (truediv_nonzero _ _ SM_M_nonzero). cbn [bind].
  rewrite (truediv_nonzero _ _ (height_in_metres_nonzero h Hh)).
  reflexivity.
Qed.

Lemma Swimming_get_spent_calories_ok (a d w l c : Q) :
  ~ d == 0 ->
  get_spent_calories (Swimming a d w l c)
  = Ok ((l * c / M_IN_KM / d + Swimming_COEFF_1) * Swimming_COEFF_2 * w * d).
Proof.
  intros Hd.
  cbn [get_spent_calories]. unfold Swimming_get_spent_calories.
  cbn [get_mean_speed].
  rewrite (Swimming_get_mean_speed_ok (Swimming a d w l c) l c Hd).
  reflexivity.
Qed.

Lemma get_spent_calories_zero (t : training) :
  registered t -> duration t == 0 ->
  get_spent_calories t = Raise ZeroDivisionError.
Proof.
  intros Hr Hd.
  destruct t; [contradiction| | |]; cbn [get_spent_calories];
    unfold Running_get_spent_calories, SportsWalking_get_spent_calories,
      Swimming_get_spent_calories;
    rewrite (get_mean_speed_zero _ Hd); reflexivity.
Qed.

Lemma show_training_info_zero (t : training) :
  duration t == 0 -> show_training_info t = Raise ZeroDivisionError.
Proof.
  intros Hd. unfold show_training_info.
  rewrite get_distance_ok. cbn [bind].
  rewrite (get_mean_speed_zero _ Hd). reflexivity.
Qed.

Lemma positive_defined (t : training) :
  positive_measurements t -> defined_metrics t.
Proof.
  destruct t; cbn; [tauto| | |]; intros H;
    repeat match goal with H : _ /\ _ |- _ => destruct H end;
    repeat split; now apply positive_nonzero.
Qed.

Lemma defined_metrics_all_defined (t : training) :
  defined_metrics t -> all_defined t.
Proof.
  unfold all_defined, show_training_info.
  destruct t as [a d w|a d w|a d w h|a d w l c]; cbn [defined_metrics].
  - contradiction.
  - intros Hd. do 3 eexists.
    rewrite get_distance_ok, (Running_get_spent_calories_ok a d w Hd).
    cbn [get_mean_speed].
    rewrite (Training_get_mean_speed_ok (Running a d w) Hd).
    repeat split.
  - intros [Hd Hh]. do 3 eexists.
    rewrite get_distance_ok,
      (SportsWalking_get_spent_calories_ok a d w h Hd Hh).
    cbn [get_mean_speed].
    rewrite (Training_get_mean_speed_ok (SportsWalking a d w h) Hd).
    repeat split.
  - intros Hd. do 3 eexists.
    rewrite get_distance_ok, (Swimming_get_spent_calories_ok a d w l c Hd).
    cbn [get_mean_speed].
    rewrite (Swimming_get_mean_speed_ok (Swimming a d w l c) l c Hd).
    repeat split.
Qed.

(** ** The calorie formulas *)

(** C1. For a [Running] instance with a non-zero duration the mean speed is
    [action * 0.65 / 1000 / duration] and the spent calories are
    [(18 * mean_speed + 1.79) * weight / 1000 * duration * 60]. *)
Theorem Running_calories_formula (a d w : Q) :
  ~ d == 0 ->
  exists v c,
    get_mean_speed (Running a d w) = Ok v
    /\ v == a * 0.65 / 1000 / d
    /\ get_spent_calories (Running a d w) = Ok c
    /\ c == (18 * v + 1.79) * w / 1000 * d * 60.
Proof.
  intros Hd. do 2 eexists.
  split; [exact (Training_get_mean_speed_ok (Running a d w) Hd)|].
  split; [reflexivity|].
  split; [exact (Running_get_spent_calories_ok a d w Hd)|].
  cbn [action duration LEN_STEP].
  unfold CALORIES_MEAN_SPEED_MULTIPLIER, CALORIES_MEAN_SPEED_SHIFT, M_IN_KM.
  field. exact Hd.
Qed.

Lemma Running_calories_formula_witness :
  exists v c,
    get_mean_speed (Running 15000 1 75) = Ok v
    /\ v == 15000 * 0.65 / 1000 / 1
    /\ get_spent_calories (Running 15000 1 75) = Ok c
    /\ c == (18 * v + 1.79) * 75 / 1000 * 1 * 60.
Proof.
  apply (Running_calories_formula 15000 1 75). discriminate.
Defined.

(** C2. For a [SportsWalking] instance with a non-zero duration and a
    non-zero height the spent calories are
    [(0.035 * weight + ((mean_speed * 0.278) ** 2 / (height / 100))
      * 0.029 * weight) * duration * 60],
    the mean speed being the one of the base class,
    [action * 0.65 / 1000 / duration]. *)
Theorem SportsWalking_calories_formula (a d w h : Q) :
  ~ d == 0 -> ~ h == 0 ->
  exists v c,
    get_mean_speed (SportsWalking a d w h) = Ok v
    /\ v == a * 0.65 / 1000 / d
    /\ get_spent_calories (SportsWalking a d w h) = Ok c
    /\ c == (0.035 * w + ((v * 0.278) ^ 2 / (h / 100)) * 0.029 * w) * d * 60.
Proof.
  intros Hd Hh. do 2 eexists.
  split; [exact (Training_get_mean_speed_ok (SportsWalking a d w h) Hd)|].
  split; [reflexivity|].
  split; [exact (SportsWalking_get_spent_calories_ok a d w h Hd Hh)|].
  cbn [action duration LEN_STEP].
  unfold SportsWalking_COEFF_1, SportsWalking_COEFF_2, SM_M, M_SEC, M_IN_KM.
  field. split; assumption.
Qed.

Lemma SportsWalking_calories_formula_witness :
  exists v c,
    get_mean_speed (SportsWalking 9000 1 75 180) = Ok v
    /\ v == 9000 * 0.65 / 1000 / 1
    /\ get_spent_calories (SportsWalking 9000 1 75 180) = Ok c
    /\ c == (0.035 * 75 + ((v * 0.278) ^ 2 / (180 / 100)) * 0.029 * 75)
            * 1 * 60.
Proof.
  apply (SportsWalking_calories_formula 9000 1 75 180); discriminate.
Defined.

(** ** The mean speed of swimming *)

(** C3. For a [Swimming] instance with a non-zero duration the mean speed
    is [length_pool * count_pool / 1000 / duration]: the method of the
    subclass is the one called, in place of the formula of the base class,
    which would divide the distance [action * 1.38 / 1000] by the
    duration. *)
Theorem Swimming_mean_speed_formula (a d w l c : Q) :
  ~ d == 0 ->
  get_mean_speed (Swimming a d w l c) = Ok (l * c / 1000 / d)
  /\ get_mean_speed (Swimming a d w l c)
     = Swimming_get_mean_speed (Swimming a d w l c) l c
  /\ Training_get_mean_speed (Swimming a d w l c)
     = Ok (a * 1.38 / 1000 / d).
Proof.
  intros Hd. split; [|split].
  - exact (Swimming_get_mean_speed_ok (Swimming a d w l c) l c Hd).
  - reflexivity.
  - exact (Training_get_mean_speed_ok (Swimming a d w l c) Hd).
Qed.

Lemma Swimming_mean_speed_formula_witness :
  get_mean_speed (Swimming 720 1 80 25 40) = Ok (25 * 40 / 1000 / 1)
  /\ get_mean_speed (Swimming 720 1 80 25 40)
     = Swimming_get_mean_speed (Swimming 720 1 80 25 40) 25 40
  /\ Training_get_mean_speed (Swimming 720 1 80 25 40)
     = Ok (720 * 1.38 / 1000 / 1).
Proof.
  apply (Swimming_mean_speed_formula 720 1 80 25 40). discriminate.
Defined.

(** C9. Two [Swimming] instances with the same pool length, the same lap
    count and the same duration have the same mean speed, whatever their
    action counts (and weights) are: they raise the same exception or return
    numbers of the same value. *)
Theorem Swimming_mean_speed_ignores_action
    (a1 a2 d1 d2 w1 w2 l1 l2 c1 c2 : Q) :
  l1 == l2 -> c1 == c2 -> d1 == d2 ->
  same_outcome (get_mean_speed (Swimming a1 d1 w1 l1 c1))
               (get_mean_speed (Swimming a2 d2 w2 l2 c2)).
Proof.
  intros Hl Hc Hd.
  destruct (Qeq_dec d1 0) as [Z1|N1].
  - assert (Z2 : d2 == 0) by (rewrite <- Hd; exact Z1).
    rewrite (get_mean_speed_zero (Swimming a1 d1 w1 l1 c1) Z1).
    rewrite (get_mean_speed_zero (Swimming a2 d2 w2 l2 c2) Z2).
    reflexivity.
  - assert (N2 : ~ d2 == 0) by (rewrite <- Hd; exact N1).
    cbn [get_mean_speed].
    rewrite (Swimming_get_mean_speed_ok (Swimming a1 d1 w1 l1 c1) l1 c1 N1).
    rewrite (Swimming_get_mean_speed_ok (Swimming a2 d2 w2 l2 c2) l2 c2 N2).
    cbn [same_outcome duration]. rewrite Hl, Hc, Hd. reflexivity.
Qed.

Lemma Swimming_mean_speed_ignores_action_witness :
  same_outcome (get_mean_speed (Swimming 720 1 80 25 40))
               (get_mean_speed (Swimming 5 (2 # 2) 60 (50 # 2) 40)).
Proof.
  apply (Swimming_mean_speed_ignores_action
           720 5 1 (2 # 2) 80 60 25 (50 # 2) 40 40); reflexivity.
Defined.

(** ** The packages of the script *)

(** C6. For the package [("SWM", [720, 1, 80, 25, 40])] the distance is
    [720 * 1.38 / 1000 = 0.9936] (the step length of swimming in the formula
    of the base class), the mean speed is [25 * 40 / 1000 / 1 = 1.0] and the
    calories are [(1.0 + 1.1) * 2 * 80 * 1 = 336.0]. *)
Theorem swimming_package_metrics :
  exists dist v c,
    read_package "SWM" [720; 1; 80; 25; 40] = Ok (Swimming 720 1 80 25 40)
    /\ get_distance (Swimming 720 1 80 25 40) = Ok dist
    /\ dist == 720 * 1.38 / 1000 /\ dist == 0.9936
    /\ get_mean_speed (Swimming 720 1 80 25 40) = Ok v
    /\ v == 25 * 40 / 1000 / 1 /\ v == 1.0
    /\ get_spent_calories (Swimming 720 1 80 25 40) = Ok c
    /\ c == (1.0 + 1.1) * 2 * 80 * 1 /\ c == 336.0.
Proof.
  do 3 eexists.
  split; [reflexivity|].
  split; [rewrite get_distance_ok; reflexivity|].
  split; [reflexivity|]. split; [reflexivity|].
  split; [vm_compute; reflexivity|].
  split; [reflexivity|]. split; [reflexivity|].
  split; [vm_compute; reflexivity|].
  split; reflexivity.
Qed.

(** C7, as stated: the calories of the running package do not agree with
    [792.84] to three decimal places. *)
Lemma running_package_calories_not_792_84 :
  ~ running_package_outcome 792.84.
Proof.
  intros (t & dist & v & c & Ht & _ & _ & _ & _ & _ & _ & Hc & _ & Hcal).
  vm_compute in Ht. injection Ht as <-.
  vm_compute in Hc. injection Hc as <-.
  vm_compute in Hcal. discriminate.
Qed.

(** C7, amended. For the package [("RUN", [15000, 1, 75])] the distance is
    [15000 * 0.65 / 1000 = 9.75], the mean speed is [9.75 / 1 = 9.75] and
    the calories are [(18 * 9.75 + 1.79) * 75 / 1000 * (1 * 60) = 797.805]. *)
Theorem running_package_metrics :
  running_package_outcome 797.805
  /\ (18 * 9.75 + 1.79) * 75 / 1000 * (1 * 60) == 797.805.
Proof.
  split; [|reflexivity].
  exists (Running 15000 1 75). do 3 eexists.
  split; [reflexivity|].
  split; [rewrite get_distance_ok; reflexivity|].
  split; [reflexivity|]. split; [reflexivity|].
  split; [vm_compute; reflexivity|].
  split; [reflexivity|]. split; [reflexivity|].
  split; [vm_compute; reflexivity|].
  split; reflexivity.
Qed.

(** The three lines that the script prints. *)
Example run_packages :
  run packages []
  = Ok [ "Тип тренировки: Swimming; Длительность: 1.000 ч.; Дистанция: 0.994 км; Ср. скорость: 1.000 км/ч; Потрачено ккал: 336.000.";
         "Тип тренировки: Running; Длительность: 1.000 ч.; Дистанция: 9.750 км; Ср. скорость: 9.750 км/ч; Потрачено ккал: 797.805.";
         "Тип тренировки: SportsWalking; Длительность: 1.000 ч.; Дистанция: 5.850 км; Ср. скорость: 5.850 км/ч; Потрачено ккал: 349.252." ].
Proof. vm_compute. reflexivity. Qed.

(** ** Formatting *)

Example format_3f_examples :
  format_3f 0.468 = "0.468" /\ format_3f 0.9936 = "0.994"
  /\ format_3f 1 = "1.000" /\ format_3f (-12.3456) = "-12.346".
Proof. repeat split; vm_compute; reflexivity. Qed.

(** [round_half_even] returns a nearest integer. *)
Lemma round_half_even_nearest (q : Q) :
  Qabs (q - inject_Z (round_half_even q)) <= 1 # 2.
Proof.
  unfold round_half_even.
  pose proof (Qfloor_le q) as Hlo. pose proof (Qlt_floor q) as Hhi.
  rewrite inject_Z_plus in Hhi.
  set (f := Qfloor q) in *.
  apply Qabs_Qle_condition.
  destruct (Qcompare_spec (q - inject_Z f) (1 # 2)) as [E|L|G];
    [destruct (Z.even f)| |]; rewrite ?inject_Z_plus;
    change (inject_Z 1) with 1 in *; split; lra.
Qed.

Lemma digit_is_digit (n : Z) : is_digit (digit n) = true.
Proof.
  unfold digit.
  pose proof (Z.mod_pos_bound n 10 ltac:(lia)) as Hn.
  remember (Z.to_nat (n mod 10)) as k eqn:Ek.
  assert (Hk : (k < 10)%nat) by lia. clear Ek Hn.
  do 10 (destruct k as [|k]; [reflexivity|]). lia.
Qed.

Lemma string_of_uint_digits (d : Decimal.uint) :
  all_digits (NilEmpty.string_of_uint d) = true.
Proof. induction d; simpl; auto. Qed.

Lemma NilZero_string_of_uint_digits (d : Decimal.uint) :
  NilZero.string_of_uint d <> ""
  /\ all_digits (NilZero.string_of_uint d) = true.
Proof.
  split.
  - destruct d; discriminate.
  - destruct d; try reflexivity; apply (string_of_uint_digits (_ d)).
Qed.

(** Every number is printed with exactly three digits after the point. *)
Lemma format_3f_fixed_3 (x : Q) : fixed_3 (format_3f x).
Proof.
  unfold format_3f.
  set (n := round_half_even (Qabs x * 1000)).
  exists (if Qlt_le_dec x 0 then "-" else "").
  exists (NilZero.string_of_uint (N.to_uint (Z.to_N (n / 1000)))).
  exists (String (digit (n / 100))
            (String (digit (n / 10)) (String (digit n) ""))).
  split; [reflexivity|].
  split; [destruct (Qlt_le_dec x 0); auto|].
  destruct (NilZero_string_of_uint_digits (N.to_uint (Z.to_N (n / 1000))))
    as [Hne Hd].
  split; [exact Hne|]. split; [exact Hd|].
  split; [reflexivity|].
  cbn [all_digits]. now rewrite !digit_is_digit.
Qed.

Lemma mem_char_app (c : ascii) (s1 s2 : string) :
  mem_char c (s1 ++ s2) = mem_char c s1 || mem_char c s2.
Proof.
  induction s1 as [|c' s1 IH]; simpl; [reflexivity|].
  now rewrite IH, orb_assoc.
Qed.

Lemma all_digits_single_line (s : string) :
  all_digits s = true -> single_line s.
Proof.
  unfold single_line.
  induction s as [|c s IH]; cbn [all_digits mem_char]; [reflexivity|].
  intros H. apply andb_true_iff in H as [Hc Hs].
  rewrite (IH Hs), orb_false_r.
  destruct (Ascii.eqb_spec "010"%char c) as [<-|]; [discriminate|reflexivity].
Qed.

Lemma fixed_3_single_line (s : string) : fixed_3 s -> single_line s.
Proof.
  intros (sign & int & frac & -> & Hsign & _ & Hint & _ & Hfrac).
  unfold single_line. rewrite !mem_char_app.
  rewrite (all_digits_single_line _ Hint), (all_digits_single_line _ Hfrac).
  destruct Hsign as [-> | ->]; reflexivity.
Qed.

Lemma format_3f_single_line (x : Q) : mem_char "010"%char (format_3f x) = false.
Proof. apply fixed_3_single_line, format_3f_fixed_3. Qed.

Lemma get_message_single_line (i : InfoMessage.t) :
  single_line (InfoMessage.training_type i) ->
  single_line (InfoMessage.get_message i).
Proof.
  unfold single_line, InfoMessage.get_message. intros Hn.
  rewrite !mem_char_app, !format_3f_single_line, Hn. reflexivity.
Qed.

Lemma type_name_single_line (t : training) : single_line (type_name t).
Proof. destruct t; reflexivity. Qed.

(** ** The report *)

(** C4, as stated: the line printed for a workout is not the English text
    of the claim, the literals of the template being Russian; and a record
    with a zero duration has no summary at all. *)
Lemma report_not_english :
  main (Running 15000 1 75) []
  = Ok [ "Тип тренировки: Running; Длительность: 1.000 ч.; Дистанция: 9.750 км; Ср. скорость: 9.750 км/ч; Потрачено ккал: 797.805." ]
  /\ main (Running 15000 1 75) []
     <> Ok [ "Workout type: Running; Duration: 1.000 h.; Distance: 9.750 km; Avg speed: 9.750 km/h; Calories burned: 797.805." ]
  /\ main (Running 15000 0 75) [] = Raise ZeroDivisionError.
Proof.
  split; [|split].
  - vm_compute. reflexivity.
  - vm_compute. discriminate.
  - reflexivity.
Qed.

(** C4, amended. For every instance of a registered class whose metrics
    are defined, the line printed is the single-line text
    [Тип тренировки: {name}; Длительность: {duration:.3f} ч.;
     Дистанция: {distance:.3f} км; Ср. скорость: {speed:.3f} км/ч;
     Потрачено ккал: {calories:.3f}.],
    where each number has exactly three digits after the point and [name]
    is the name of the class: Running, SportsWalking or Swimming. *)
Theorem report_template (t : training) :
  defined_metrics t ->
  exists dist v c line,
    get_distance t = Ok dist
    /\ get_mean_speed t = Ok v
    /\ get_spent_calories t = Ok c
    /\ main t [] = Ok [line]
    /\ line = "Тип тренировки: " ++ type_name t
              ++ "; Длительность: " ++ format_3f (duration t)
              ++ " ч.; Дистанция: " ++ format_3f dist
              ++ " км; Ср. скорость: " ++ format_3f v
              ++ " км/ч; Потрачено ккал: " ++ format_3f c ++ "."
    /\ In (type_name t) ["Running"; "SportsWalking"; "Swimming"]
    /\ fixed_3 (format_3f (duration t)) /\ fixed_3 (format_3f dist)
    /\ fixed_3 (format_3f v) /\ fixed_3 (format_3f c)
    /\ single_line line.
Proof.
  intros Hdef.
  destruct (defined_metrics_all_defined t Hdef)
    as (dist & v & c & Hdist & Hv & Hc & Hinfo).
  exists dist, v, c.
  exists (InfoMessage.get_message
            (InfoMessage.mk (type_name t) (duration t) dist v c)).
  split; [exact Hdist|]. split; [exact Hv|]. split; [exact Hc|].
  split; [unfold main; rewrite Hinfo; reflexivity|].
  split; [reflexivity|].
  split; [destruct t; cbn in Hdef |- *; tauto|].
  repeat (split; [apply format_3f_fixed_3|]).
  apply get_message_single_line, type_name_single_line.
Qed.

Lemma report_template_witness :
  exists dist v c line,
    get_distance (Swimming 720 1 80 25 40) = Ok dist
    /\ get_mean_speed (Swimming 720 1 80 25 40) = Ok v
    /\ get_spent_calories (Swimming 720 1 80 25 40) = Ok c
    /\ main (Swimming 720 1 80 25 40) [] = Ok [line]
    /\ line = "Тип тренировки: " ++ type_name (Swimming 720 1 80 25 40)
              ++ "; Длительность: "
              ++ format_3f (duration (Swimming 720 1 80 25 40))
              ++ " ч.; Дистанция: " ++ format_3f dist
              ++ " км; Ср. скорость: " ++ format_3f v
              ++ " км/ч; Потрачено ккал: " ++ format_3f c ++ "."
    /\ In (type_name (Swimming 720 1 80 25 40))
          ["Running"; "SportsWalking"; "Swimming"]
    /\ fixed_3 (format_3f (duration (Swimming 720 1 80 25 40)))
    /\ fixed_3 (format_3f dist)
    /\ fixed_3 (format_3f v) /\ fixed_3 (format_3f c)
    /\ single_line line.
Proof.
  apply (report_template (Swimming 720 1 80 25 40)). cbn. discriminate.
Defined.

(** ** read_package *)

Lemma read_package_registered (code : string) (data : list Q) (t : training) :
  read_package code data = Ok t -> registered t /\ fields t = data.
Proof.
  unfold read_package.
  destruct (dict_get storage_data code) as [init|] eqn:E; [|discriminate].
  cbn in E.
  repeat match type of E with
         | (if ?b then _ else _) = _ => destruct b
         end;
    try discriminate; injection E as <-;
    destruct data as [|a [|d [|w [|x [|y [|z data]]]]]]; cbn;
    try discriminate; intros [= <-]; cbn; auto.
Qed.

Lemma read_package_unknown (code : string) (data : list Q) :
  code <> "SWM" -> code <> "RUN" -> code <> "WLK" ->
  read_package code data
  = Raise (ValueError "Неподдерживаемый тип тренировки").
Proof.
  intros H1 H2 H3. unfold read_package. cbn [dict_get storage_data].
  apply String.eqb_neq in H1, H2, H3. now rewrite H1, H2, H3.
Qed.

(** C5, as stated: a recognised code does not always give a record, and
    the error raised for an unknown code is the same whatever the code is,
    so that it does not carry the code. *)
Lemma read_package_not_as_claimed :
  read_package "RUN" [] = Raise TypeError
  /\ read_package "XYZ" [1; 1; 1]
     = Raise (ValueError "Неподдерживаемый тип тренировки")
  /\ read_package "ABC" [1; 1; 1] = read_package "XYZ" [1; 1; 1].
Proof. repeat split. Qed.

(** C5, amended. For the codes SWM, RUN and WLK and a list with as many
    values as the class has fields, [read_package] returns the instance of
    the matching class built from the values in order; for every other code
    and every list it raises one and the same [ValueError], whose message
    is fixed and does not mention the code. *)
Theorem read_package_dispatch :
  (forall a d w l c : Q,
      read_package "SWM" [a; d; w; l; c] = Ok (Swimming a d w l c))
  /\ (forall a d w : Q, read_package "RUN" [a; d; w] = Ok (Running a d w))
  /\ (forall a d w h : Q,
         read_package "WLK" [a; d; w; h] = Ok (SportsWalking a d w h))
  /\ (forall (code : string) (data : list Q),
         code <> "SWM" -> code <> "RUN" -> code <> "WLK" ->
         read_package code data
         = Raise (ValueError "Неподдерживаемый тип тренировки")).
Proof.
  repeat split. exact read_package_unknown.
Qed.

Lemma read_package_dispatch_witness :
  read_package "SWM" [720; 1; 80; 25; 40] = Ok (Swimming 720 1 80 25 40)
  /\ read_package "RUN" [15000; 1; 75] = Ok (Running 15000 1 75)
  /\ read_package "WLK" [9000; 1; 75; 180] = Ok (SportsWalking 9000 1 75 180)
  /\ read_package "XYZ" [1; 1; 1]
     = Raise (ValueError "Неподдерживаемый тип тренировки").
Proof.
  destruct read_package_dispatch as (Hs & Hr & Hw & Hu).
  split; [apply Hs|]. split; [apply Hr|]. split; [apply Hw|].
  apply Hu; discriminate.
Defined.

(** C8, as stated: the failure on a wrong number of values is not an error
    of the module's own.  [read_package] has no check of the length; the
    call of the constructor raises the interpreter's [TypeError], and no
    exception raised by a statement of the module comes out. *)
Lemma read_package_no_arity_error :
  read_package "WLK" [9000; 1; 75] = Raise TypeError
  /\ raised_by_module TypeError = false
  /\ ~ (exists e, read_package "WLK" [9000; 1; 75] = Raise e
                  /\ raised_by_module e = true).
Proof.
  split; [reflexivity|]. split; [reflexivity|].
  intros (e & He & Hm). cbn in He. injection He as <-. discriminate.
Qed.

(** C8, amended. For a recognised code and a list whose length is not the
    number of fields of the class, [read_package] returns no instance: the
    call of the constructor raises [TypeError], the generic exception of a
    call with a wrong number of arguments. *)
Theorem read_package_arity_mismatch
    (code : string) (n : nat) (data : list Q) :
  In (code, n) required_positional ->
  List.length data <> n ->
  read_package code data = Raise TypeError.
Proof.
  intros Hin Hlen. cbn in Hin.
  destruct Hin as [E|[E|[E|[]]]]; injection E as <- <-;
    destruct data as [|a [|d [|w [|x [|y [|z data]]]]]];
    cbn in Hlen; try reflexivity; contradiction.
Qed.

Lemma read_package_arity_mismatch_witness :
  read_package "WLK" [9000; 1; 75] = Raise TypeError.
Proof.
  apply (read_package_arity_mismatch "WLK" 4 [9000; 1; 75]).
  - cbn. auto.
  - cbn. discriminate.
Defined.

(** [TypeError] is raised in no other case. *)
Lemma read_package_TypeError_inv (code : string) (data : list Q) :
  read_package code data = Raise TypeError ->
  exists n, In (code, n) required_positional /\ List.length data <> n.
Proof.
  unfold read_package. cbn [dict_get storage_data].
  destruct (String.eqb_spec code "SWM") as [->|_];
    [|destruct (String.eqb_spec code "RUN") as [->|_];
      [|destruct (String.eqb_spec code "WLK") as [->|_]; [|discriminate]]];
    intros H; eexists; (split; [cbn; eauto|]);
    destruct data as [|a [|d [|w [|x [|y [|z data]]]]]];
    cbn in H |- *; try discriminate; lia.
Qed.

(** ** Measurements are not validated *)

(** C10. A positive duration is needed and not checked.  With a positive
    duration (and, for walking, a positive height) every metric and the
    summary are computed, no division raising.  With a zero duration the
    mean speed, the calories and the summary raise [ZeroDivisionError].
    Nothing rejects a zero or a negative measurement: [read_package] builds
    the instance from any values of the right number, and the metrics of an
    instance are computed whenever its duration (and, for walking, its
    height) is not zero, negative values included. *)
Theorem measurements_not_validated :
  (forall t : training, positive_measurements t -> all_defined t)
  /\ (forall t : training,
         registered t -> duration t == 0 ->
         get_mean_speed t = Raise ZeroDivisionError
         /\ get_spent_calories t = Raise ZeroDivisionError
         /\ show_training_info t = Raise ZeroDivisionError)
  /\ (forall (code : string) (n : nat) (data : list Q),
         In (code, n) required_positional -> List.length data = n ->
         exists t, read_package code data = Ok t /\ fields t = data)
  /\ (forall t : training, defined_metrics t -> all_defined t).
Proof.
  split; [|split; [|split]].
  - intros t Ht. apply defined_metrics_all_defined, positive_defined, Ht.
  - intros t Hr Hd. split; [|split].
    + apply get_mean_speed_zero, Hd.
    + apply get_spent_calories_zero; assumption.
    + apply show_training_info_zero, Hd.
  - intros code n data Hin Hlen. cbn in Hin.
    destruct Hin as [E|[E|[E|[]]]]; injection E as <- <-;
      destruct data as [|a [|d [|w [|x [|y [|z data]]]]]];
      cbn in Hlen; try discriminate; eexists; split; reflexivity.
  - exact defined_metrics_all_defined.
Qed.

Lemma measurements_not_validated_witness :
  all_defined (SportsWalking 9000 1 75 180)
  /\ (get_mean_speed (Running 15000 0 75) = Raise ZeroDivisionError
      /\ get_spent_calories (Running 15000 0 75) = Raise ZeroDivisionError
      /\ show_training_info (Running 15000 0 75) = Raise ZeroDivisionError)
  /\ (exists t, read_package "RUN" [15000; -1; 0] = Ok t
                /\ fields t = [15000; -1; 0])
  /\ all_defined (Running 15000 (-1) 0).
Proof.
  destruct measurements_not_validated as (Hpos & Hzero & Hbuild & Hdef).
  split; [|split; [|split]].
  - apply Hpos. cbn. split; reflexivity.
  - apply Hzero; cbn; [exact I|reflexivity].
  - apply (Hbuild "RUN" 3%nat); cbn; auto.
  - apply Hdef. cbn. discriminate.
Defined.

(** * Further properties of the module *)

(** ** Signs and arithmetic helpers *)

Lemma Qdiv_nonneg (a b : Q) : 0 <= a -> 0 < b -> 0 <= a / b.
Proof.
  intros Ha Hb. apply Qle_shift_div_l; [exact Hb|].
  now rewrite Qmult_0_l.
Qed.

Lemma Qdiv_pos (a b : Q) : 0 < a -> 0 < b -> 0 < a / b.
Proof.
  intros Ha Hb. apply Qlt_shift_div_l; [exact Hb|].
  now rewrite Qmult_0_l.
Qed.

Lemma registered_not_defined (t : training) :
  registered t -> ~ defined_metrics t ->
  duration t == 0
  \/ (exists a d w h, t = SportsWalking a d w h /\ ~ d == 0 /\ h == 0).
Proof.
  destruct t as [a d w|a d w|a d w h|a d w l c]; cbn; intros Hr Hn.
  - contradiction.
  - destruct (Qeq_dec d 0); tauto.
  - destruct (Qeq_dec d 0) as [|Hd]; [tauto|].
    destruct (Qeq_dec h 0) as [Hh|]; [|tauto].
    right. exists a, d, w, h. auto.
  - destruct (Qeq_dec d 0); tauto.
Qed.

Lemma SportsWalking_zero_height (a d w h : Q) :
  ~ d == 0 -> h == 0 ->
  get_spent_calories (SportsWalking a d w h) = Raise ZeroDivisionError.
Proof.
  intros Hd Hh.
  cbn [get_spent_calories]. unfold SportsWalking_get_spent_calories.
  cbn [get_mean_speed].
  rewrite (Training_get_mean_speed_ok (SportsWalking a d w h) Hd).
  cbn [bind].
  rewrite (truediv_nonzero _ _ SM_M_nonzero). cbn [bind].
  rewrite truediv_zero; [reflexivity|].
  rewrite Hh. reflexivity.
Qed.

(** ** Distance, mean speed and duration *)

(** X1. With a non-zero duration the mean speed of a [Training], [Running]
    or [SportsWalking] instance times the duration is the distance.  For a
    [Swimming] instance it is [length_pool * count_pool / 1000], which is
    the reported distance only when
    [length_pool * count_pool = action * 1.38]. *)
Theorem mean_speed_times_duration (t : training) :
  ~ duration t == 0 ->
  exists v dist,
    get_mean_speed t = Ok v /\ get_distance t = Ok dist
    /\ match t with
       | Swimming a _ _ l c =>
           v * duration t == l * c / 1000
           /\ (v * duration t == dist <-> l * c == a * 1.38)
       | _ => v * duration t == dist
       end.
Proof.
  intros Hd. rewrite get_distance_ok.
  destruct t as [a d w|a d w|a d w h|a d w l c]; cbn [get_mean_speed];
    rewrite ?(Training_get_mean_speed_ok _ Hd),
      ?(Swimming_get_mean_speed_ok _ _ _ Hd);
    do 2 eexists; (split; [reflexivity|]); (split; [reflexivity|]);
    cbn [duration action LEN_STEP] in *; unfold M_IN_KM;
    try (field; exact Hd).
  split; [field; exact Hd|].
  split; intros H.
  - setoid_replace (l * c) with (l * c / 1000 / d * d * 1000)
      by (field; exact Hd).
    rewrite H. field.
  - setoid_replace (l * c / 1000 / d * d) with (l * c / 1000)
      by (field; exact Hd).
    rewrite H. reflexivity.
Qed.

Lemma mean_speed_times_duration_witness :
  exists v dist,
    get_mean_speed (Swimming 720 1 80 25 40) = Ok v
    /\ get_distance (Swimming 720 1 80 25 40) = Ok dist
    /\ v * 1 == 25 * 40 / 1000
    /\ (v * 1 == dist <-> 25 * 40 == 720 * 1.38).
Proof.
  apply (mean_speed_times_duration (Swimming 720 1 80 25 40)).
  discriminate.
Defined.

(** ** The calories of swimming *)

(** X2. For a [Swimming] instance with a non-zero duration the calories are
    [(mean_speed + 1.1) * 2 * weight * duration], which is
    [(length_pool * count_pool / 1000 + 1.1 * duration) * 2 * weight]: the
    action count has no part in them. *)
Theorem Swimming_calories_formula (a d w l c : Q) :
  ~ d == 0 ->
  exists v cal,
    get_mean_speed (Swimming a d w l c) = Ok v
    /\ get_spent_calories (Swimming a d w l c) = Ok cal
    /\ cal == (v + 1.1) * 2 * w * d
    /\ cal == (l * c / 1000 + 1.1 * d) * 2 * w.
Proof.
  intros Hd. do 2 eexists.
  split; [exact (Swimming_get_mean_speed_ok (Swimming a d w l c) l c Hd)|].
  split; [exact (Swimming_get_spent_calories_ok a d w l c Hd)|].
  cbn [duration]. unfold Swimming_COEFF_1, Swimming_COEFF_2, M_IN_KM.
  split; [reflexivity|field; exact Hd].
Qed.

Lemma Swimming_calories_formula_witness :
  exists v cal,
    get_mean_speed (Swimming 720 1 80 25 40) = Ok v
    /\ get_spent_calories (Swimming 720 1 80 25 40) = Ok cal
    /\ cal == (v + 1.1) * 2 * 80 * 1
    /\ cal == (25 * 40 / 1000 + 1.1 * 1) * 2 * 80.
Proof.
  apply (Swimming_calories_formula 720 1 80 25 40). discriminate.
Defined.

(** ** Signs *)

(** X3. For a registered instance whose counts and lengths are not
    negative and whose duration, weight and (for walking) height are
    positive, the distance and the mean speed are not negative and the
    calories are positive. *)
Theorem plausible_metrics_signs (t : training) :
  plausible t ->
  exists dist v c,
    get_distance t = Ok dist /\ get_mean_speed t = Ok v
    /\ get_spent_calories t = Ok c
    /\ 0 <= dist /\ 0 <= v /\ 0 < c.
Proof.
  rewrite get_distance_ok.
  destruct t as [a d w|a d w|a d w h|a d w l c]; cbn [plausible].
  - contradiction.
  - intros (Ha & Hd & Hw).
    pose proof (positive_nonzero d Hd) as Nd.
    rewrite (Running_get_spent_calories_ok a d w Nd).
    cbn [get_mean_speed].
    rewrite (Training_get_mean_speed_ok (Running a d w) Nd).
    do 3 eexists. do 3 (split; [reflexivity|]).
    cbn [action duration LEN_STEP].
    assert (Hdist : 0 <= a * 0.65 / M_IN_KM).
    { apply Qdiv_nonneg; [|reflexivity].
      apply Qmult_le_0_compat; [exact Ha|discriminate]. }
    assert (Hv : 0 <= a * 0.65 / M_IN_KM / d)
      by (apply Qdiv_nonneg; assumption).
    split; [exact Hdist|]. split; [exact Hv|].
    apply Qmult_lt_0_compat.
    + apply Qdiv_pos; [|reflexivity].
      apply Qmult_lt_0_compat; [|exact Hw].
      unfold CALORIES_MEAN_SPEED_MULTIPLIER, CALORIES_MEAN_SPEED_SHIFT.
      apply Qlt_le_trans with (0 + 1.79); [reflexivity|].
      apply Qplus_le_l. apply Qmult_le_0_compat; [discriminate|exact Hv].
    + apply Qmult_lt_0_compat; [exact Hd|reflexivity].
  - intros (Ha & Hd & Hw & Hh).
    pose proof (positive_nonzero d Hd) as Nd.
    pose proof (positive_nonzero h Hh) as Nh.
    rewrite (SportsWalking_get_spent_calories_ok a d w h Nd Nh).
    cbn [get_mean_speed].
    rewrite (Training_get_mean_speed_ok (SportsWalking a d w h) Nd).
    do 3 eexists. do 3 (split; [reflexivity|]).
    cbn [action duration LEN_STEP].
    assert (Hdist : 0 <= a * 0.65 / M_IN_KM).
    { apply Qdiv_nonneg; [|reflexivity].
      apply Qmult_le_0_compat; [exact Ha|discriminate]. }
    assert (Hv : 0 <= a * 0.65 / M_IN_KM / d)
      by (apply Qdiv_nonneg; assumption).
    split; [exact Hdist|]. split; [exact Hv|].
    apply Qmult_lt_0_compat;
      [|apply Qmult_lt_0_compat; [exact Hd|reflexivity]].
    assert (H1 : 0 < SportsWalking_COEFF_1 * w)
      by (apply Qmult_lt_0_compat; [reflexivity|exact Hw]).
    assert (H2 : 0 <= (a * 0.65 / M_IN_KM / d * M_SEC) ^ 2 / (h / SM_M)
                      * SportsWalking_COEFF_2 * w).
    { apply Qmult_le_0_compat; [|apply Qlt_le_weak, Hw].
      apply Qmult_le_0_compat; [|discriminate].
      apply Qdiv_nonneg; [|apply Qdiv_pos; [exact Hh|reflexivity]].
      cbn [Qpower Qpower_positive pow_pos Pos.iter_op].
      apply Qmult_le_0_compat;
        apply Qmult_le_0_compat; (exact Hv || discriminate). }
    lra.
  - intros (Ha & Hd & Hw & Hl & Hc).
    pose proof (positive_nonzero d Hd) as Nd.
    rewrite (Swimming_get_spent_calories_ok a d w l c Nd).
    cbn [get_mean_speed].
    rewrite (Swimming_get_mean_speed_ok (Swimming a d w l c) l c Nd).
    do 3 eexists. do 3 (split; [reflexivity|]).
    cbn [action duration LEN_STEP].
    assert (Hv : 0 <= l * c / M_IN_KM / d).
    { apply Qdiv_nonneg; [|exact Hd].
      apply Qdiv_nonneg; [|reflexivity].
      apply Qmult_le_0_compat; assumption. }
    split.
    { apply Qdiv_nonneg; [|reflexivity].
      apply Qmult_le_0_compat; [exact Ha|discriminate]. }
    split; [exact Hv|].
    repeat apply Qmult_lt_0_compat; try assumption; try reflexivity.
    unfold Swimming_COEFF_1. lra.
Qed.

Lemma plausible_metrics_signs_witness :
  exists dist v c,
    get_distance (SportsWalking 9000 1 75 180) = Ok dist
    /\ get_mean_speed (SportsWalking 9000 1 75 180) = Ok v
    /\ get_spent_calories (SportsWalking 9000 1 75 180) = Ok c
    /\ 0 <= dist /\ 0 <= v /\ 0 < c.
Proof.
  apply (plausible_metrics_signs (SportsWalking 9000 1 75 180)).
  cbn. repeat split; discriminate.
Defined.

(** ** Weight *)

(** X4. The calories are proportional to the weight: for a registered
    instance whose metrics are defined, multiplying the weight by [k]
    multiplies the calories by [k]. *)
Theorem calories_proportional_to_weight (t : training) (k : Q) :
  defined_metrics t ->
  exists c ck,
    get_spent_calories t = Ok c
    /\ get_spent_calories (with_weight t (k * weight t)) = Ok ck
    /\ ck == k * c.
Proof.
  destruct t as [a d w|a d w|a d w h|a d w l c];
    cbn [defined_metrics with_weight weight].
  - contradiction.
  - intros Hd. do 2 eexists.
    rewrite !(Running_get_spent_calories_ok _ _ _ Hd).
    do 2 (split; [reflexivity|]).
    unfold M_IN_KM. field. exact Hd.
  - intros [Hd Hh]. do 2 eexists.
    rewrite !(SportsWalking_get_spent_calories_ok _ _ _ _ Hd Hh).
    do 2 (split; [reflexivity|]).
    unfold M_IN_KM, SM_M. field. split; assumption.
  - intros Hd. do 2 eexists.
    rewrite !(Swimming_get_spent_calories_ok _ _ _ _ _ Hd).
    do 2 (split; [reflexivity|]).
    unfold M_IN_KM. field. exact Hd.
Qed.

Lemma calories_proportional_to_weight_witness :
  exists c ck,
    get_spent_calories (Running 15000 1 75) = Ok c
    /\ get_spent_calories (Running 15000 1 (2 * 75)) = Ok ck
    /\ ck == 2 * c.
Proof.
  apply (calories_proportional_to_weight (Running 15000 1 75) 2).
  cbn. discriminate.
Defined.

(** ** When the summary exists *)

(** X5. [show_training_info] returns a summary exactly for the registered
    instances with a non-zero duration and, for walking, a non-zero height;
    for every other registered instance it raises [ZeroDivisionError], and
    so do the calories. *)
Theorem summary_defined_iff (t : training) :
  ((exists info, show_training_info t = Ok info) <-> defined_metrics t)
  /\ (registered t -> ~ defined_metrics t ->
      get_spent_calories t = Raise ZeroDivisionError
      /\ show_training_info t = Raise ZeroDivisionError).
Proof.
  assert (Hfail : registered t -> ~ defined_metrics t ->
                  get_spent_calories t = Raise ZeroDivisionError
                  /\ show_training_info t = Raise ZeroDivisionError).
  { intros Hr Hn.
    destruct (registered_not_defined t Hr Hn)
      as [Hd|(a & d & w & h & -> & Hd & Hh)].
    - split; [now apply get_spent_calories_zero
             |now apply show_training_info_zero].
    - pose proof (SportsWalking_zero_height a d w h Hd Hh) as Hc.
      split; [exact Hc|].
      unfold show_training_info. rewrite get_distance_ok. cbn [bind].
      cbn [get_mean_speed].
      rewrite (Training_get_mean_speed_ok (SportsWalking a d w h) Hd).
      cbn [bind]. rewrite Hc. reflexivity. }
  split; [|exact Hfail]. split.
  - intros [info Hinfo].
    destruct t as [a d w|a d w|a d w h|a d w l c].
    + exfalso. unfold show_training_info in Hinfo.
      rewrite get_distance_ok in Hinfo. cbn [bind] in Hinfo.
      destruct (get_mean_speed (Training a d w)); discriminate.
    + cbn. intros Hd.
      rewrite (show_training_info_zero (Running a d w) Hd) in Hinfo.
      discriminate.
    + cbn. destruct (Qeq_dec d 0) as [Hd|Hd].
      * rewrite (show_training_info_zero (SportsWalking a d w h) Hd)
          in Hinfo. discriminate.
      * split; [exact Hd|]. intros Hh.
        destruct (Hfail I) as [_ Hs]; [cbn; tauto|].
        rewrite Hs in Hinfo. discriminate.
    + cbn. intros Hd.
      rewrite (show_training_info_zero (Swimming a d w l c) Hd) in Hinfo.
      discriminate.
  - intros Hdef.
    destruct (defined_metrics_all_defined t Hdef)
      as (dist & v & c & _ & _ & _ & Hinfo).
    eauto.
Qed.

Lemma summary_defined_iff_witness :
  ((exists info, show_training_info (SportsWalking 9000 1 75 0) = Ok info)
   <-> defined_metrics (SportsWalking 9000 1 75 0))
  /\ get_spent_calories (SportsWalking 9000 1 75 0)
     = Raise ZeroDivisionError
  /\ show_training_info (SportsWalking 9000 1 75 0)
     = Raise ZeroDivisionError.
Proof.
  destruct (summary_defined_iff (SportsWalking 9000 1 75 0)) as [Hiff Hfail].
  split; [exact Hiff|].
  apply Hfail; cbn; [exact I|].
  intros [_ Hh]. apply Hh. reflexivity.
Defined.

(** ** The base class *)

(** X6. An instance of the base class [Training] has a distance and, with a
    non-zero duration, a mean speed, but no calories and no summary: the
    calories raise [NotImplementedError], and [main] raises
    [ZeroDivisionError] when the duration is zero and [NotImplementedError]
    otherwise, printing nothing.  [read_package] never builds one. *)
Theorem base_class_has_no_summary (a d w : Q) :
  get_spent_calories (Training a d w) = Raise NotImplementedError
  /\ (forall out,
         main (Training a d w) out
         = Raise (if Qeq_bool d 0 then ZeroDivisionError
                  else NotImplementedError))
  /\ (forall code data, read_package code data <> Ok (Training a d w)).
Proof.
  split; [reflexivity|]. split.
  - intros out. unfold main, show_training_info.
    rewrite get_distance_ok. cbn [bind].
    destruct (Qeq_bool d 0) eqn:E.
    + apply Qeq_bool_iff in E.
      rewrite (get_mean_speed_zero (Training a d w) E). reflexivity.
    + apply Qeq_bool_neq in E. cbn [get_mean_speed].
      rewrite (Training_get_mean_speed_ok (Training a d w) E).
      reflexivity.
  - intros code data H.
    apply read_package_registered in H as [Hr _]. exact Hr.
Qed.

(** ** read_package *)

Lemma read_package_inv (code : string) (data : list Q) (t : training) :
  read_package code data = Ok t -> code_of t = Some code /\ fields t = data.
Proof.
  intros H.
  destruct (read_package_registered code data t H) as [_ Hf].
  split; [|exact Hf].
  unfold read_package in H. cbn [dict_get storage_data] in H.
  destruct (String.eqb_spec code "SWM") as [->|_];
    [|destruct (String.eqb_spec code "RUN") as [->|_];
      [|destruct (String.eqb_spec code "WLK") as [->|_]; [|discriminate]]];
    destruct data as [|x1 [|x2 [|x3 [|x4 [|x5 [|x6 data]]]]]];
    cbn in H; try discriminate; injection H as <-; reflexivity.
Qed.

(** X7. [read_package] and the pair of [code_of] and [fields] are inverse
    to each other: [read_package code data] returns [t] exactly when [code]
    is the code of the class of [t] and [data] lists the fields of [t] in
    declaration order.  Nothing is lost and nothing is converted. *)
Theorem read_package_round_trip
    (code : string) (data : list Q) (t : training) :
  read_package code data = Ok t
  <-> code_of t = Some code /\ fields t = data.
Proof.
  split.
  - apply read_package_inv.
  - intros [Hc <-].
    destruct t; cbn in Hc; try discriminate; injection Hc as <-; reflexivity.
Qed.

(** X8. [read_package] returns an instance exactly when the code is one of
    the three registered codes and the number of values is the number of
    fields of its class. *)
Theorem read_package_succeeds_iff (code : string) (data : list Q) :
  (exists t, read_package code data = Ok t)
  <-> In (code, List.length data) required_positional.
Proof.
  split.
  - intros [t H]. apply read_package_inv in H as [Hc <-].
    destruct t; cbn in Hc; try discriminate; injection Hc as <-; cbn; auto.
  - cbn. intros [E|[E|[E|[]]]]; injection E as <- Hlen;
      destruct data as [|x1 [|x2 [|x3 [|x4 [|x5 [|x6 data]]]]]];
      cbn in Hlen; try discriminate; eexists; reflexivity.
Qed.

(** ** The loop of the script *)

Lemma run_cons (p : string * list Q) (ps : list (string * list Q))
    (out : list string) :
  run (p :: ps) out = line <- report_of p ;; run ps (out ++ [line])%list.
Proof.
  destruct p as [code data]. cbn [run run_stdout].
  unfold report_of, main. cbn [fst snd].
  destruct (read_package code data) as [t|e]; [|reflexivity].
  cbn [bind].
  destruct (show_training_info t); reflexivity.
Qed.

Lemma run_stdout_cons (p : string * list Q) (ps : list (string * list Q))
    (out : list string) :
  run_stdout (p :: ps) out
  = match report_of p with
    | Ok line => run_stdout ps (out ++ [line])%list
    | Raise e => (out, Some e)
    end.
Proof.
  destruct p as [code data]. cbn [run run_stdout].
  unfold report_of, main. cbn [fst snd].
  destruct (read_package code data) as [t|e]; [|reflexivity].
  cbn [bind].
  destruct (show_training_info t); reflexivity.
Qed.

(** X9. The script prints one line per package, in the order of the
    packages, after the lines already printed: the run ends normally
    exactly when every package has a report, and the output is then the
    former output followed by these reports. *)
Theorem run_reports_in_order
    (ps : list (string * list Q)) (out out' : list string) :
  run ps out = Ok out'
  <-> exists lines,
        out' = (out ++ lines)%list
        /\ Forall2 (fun p line => report_of p = Ok line) ps lines.
Proof.
  revert out out'. induction ps as [|p ps IH]; intros out out'.
  - cbn. split.
    + intros [= <-]. exists []. split; [now rewrite app_nil_r|constructor].
    + intros (lines & -> & HF). inversion HF. now rewrite app_nil_r.
  - rewrite run_cons. split.
    + destruct (report_of p) as [line|e] eqn:E; [|discriminate].
      cbn [bind]. intros H. apply IH in H as (lines & -> & HF).
      exists (line :: lines). split.
      * now rewrite <- app_assoc.
      * constructor; assumption.
    + intros (lines & -> & HF).
      inversion HF as [|p' line ps' lines' Hp HF' E1 E2]; subst.
      rewrite Hp. cbn [bind]. apply IH.
      exists lines'. split; [now rewrite <- app_assoc|assumption].
Qed.

(** X10. The script stops at the first package that fails: the exception
    of that package ends the run, the lines of the packages before it stay
    on the standard output, the failing package prints nothing and the
    packages after it are not looked at. *)
Theorem run_stops_at_first_failure
    (ps1 ps2 : list (string * list Q)) (p : string * list Q)
    (lines out : list string) (e : exception) :
  Forall2 (fun p line => report_of p = Ok line) ps1 lines ->
  report_of p = Raise e ->
  run_stdout (ps1 ++ p :: ps2) out = ((out ++ lines)%list, Some e)
  /\ run (ps1 ++ p :: ps2) out = Raise e.
Proof.
  intros HF Hp. revert out.
  induction HF as [|q line ps1 lines Hq HF IH]; intros out.
  - cbn [app]. rewrite run_stdout_cons, run_cons, Hp, app_nil_r.
    split; reflexivity.
  - cbn [app]. rewrite run_stdout_cons, run_cons, Hq. cbn [bind].
    destruct (IH (out ++ [line])%list) as [H1 H2].
    rewrite H1, H2, <- app_assoc. split; reflexivity.
Qed.

Lemma run_stops_at_first_failure_witness :
  run_stdout ([("RUN", [15000; 1; 75])] ++ ("WLK", [9000; 0; 75; 180])
              :: [("SWM", [720; 1; 80; 25; 40])]) []
  = (([] ++ ["Тип тренировки: Running; Длительность: 1.000 ч.; Дистанция: 9.750 км; Ср. скорость: 9.750 км/ч; Потрачено ккал: 797.805."])%list,
     Some ZeroDivisionError)
  /\ run ([("RUN", [15000; 1; 75])] ++ ("WLK", [9000; 0; 75; 180])
          :: [("SWM", [720; 1; 80; 25; 40])]) []
     = Raise ZeroDivisionError.
Proof.
  apply (run_stops_at_first_failure
           [("RUN", [15000; 1; 75])] [("SWM", [720; 1; 80; 25; 40])]
           ("WLK", [9000; 0; 75; 180])).
  - constructor; [vm_compute; reflexivity|constructor].
  - reflexivity.
Defined.

(** X11. Running the script on two lists of packages one after the other
    is running it on their concatenation. *)
Theorem run_app (ps1 ps2 : list (string * list Q)) (out : list string) :
  run (ps1 ++ ps2) out = out1 <- run ps1 out ;; run ps2 out1.
Proof.
  revert out. induction ps1 as [|p ps1 IH]; intros out; [reflexivity|].
  cbn [app]. rewrite !run_cons.
  destruct (report_of p) as [line|e]; [|reflexivity].
  cbn [bind]. apply IH.
Qed.

(** X12. The standard output only grows: whatever the packages are, the
    lines printed before the run stay as they are, at most one line per
    package is added, every package has its line exactly when no exception
    ended the run, and [run] returns that output or raises that
    exception. *)
Theorem run_stdout_grows (ps : list (string * list Q)) (out : list string) :
  exists lines,
    fst (run_stdout ps out) = (out ++ lines)%list
    /\ (List.length lines <= List.length ps)%nat
    /\ (snd (run_stdout ps out) = None
        <-> List.length lines = List.length ps)
    /\ run ps out = match snd (run_stdout ps out) with
                    | None => Ok (out ++ lines)%list
                    | Some e => Raise e
                    end.
Proof.
  revert out. induction ps as [|p ps IH]; intros out.
  - exists []. cbn. rewrite app_nil_r. repeat split; auto.
  - rewrite run_stdout_cons, run_cons.
    destruct (report_of p) as [line|e].
    + cbn [bind].
      destruct (IH (out ++ [line])%list) as (lines & H1 & H2 & H3 & H4).
      exists (line :: lines). rewrite H1, H4, <- !app_assoc. cbn.
      split; [reflexivity|]. split; [lia|]. split; [|reflexivity].
      rewrite H3. lia.
    + exists []. cbn. rewrite app_nil_r.
      split; [reflexivity|]. split; [lia|].
      split; [|reflexivity]. split; discriminate.
Qed.

(** ** More actions, no fewer calories *)

(** X14. For a plausible instance, raising the action count (the other
    fields unchanged) never lowers the calories: for running and walking a
    greater count gives strictly more calories, and for swimming the
    calories do not change. *)
Theorem calories_monotone_in_action (t : training) (a2 : Q) :
  plausible t -> action t <= a2 ->
  exists c1 c2,
    get_spent_calories t = Ok c1
    /\ get_spent_calories (with_action t a2) = Ok c2
    /\ c1 <= c2
    /\ match t with
       | Swimming _ _ _ _ _ => c1 == c2
       | _ => action t < a2 -> c1 < c2
       end.
Proof.
  destruct t as [a d w|a d w|a d w h|a d w l c];
    cbn [plausible with_action action].
  - contradiction.
  - intros (Ha & Hd & Hw) Hle.
    pose proof (positive_nonzero d Hd) as Nd.
    rewrite !(Running_get_spent_calories_ok _ _ _ Nd).
    do 2 eexists. do 2 (split; [reflexivity|]).
    unfold CALORIES_MEAN_SPEED_MULTIPLIER, CALORIES_MEAN_SPEED_SHIFT, M_IN_KM.
    match goal with |- ?c1 <= ?c2 /\ _ =>
      setoid_replace c2 with (c1 + (a2 - a) * w * 0.000702)
        by (field; exact Nd)
    end.
    split.
    + assert (0 <= (a2 - a) * w * 0.000702).
      { apply Qmult_le_0_compat; [|discriminate].
        apply Qmult_le_0_compat; lra. }
      lra.
    + intros Hlt.
      assert (0 < (a2 - a) * w * 0.000702).
      { apply Qmult_lt_0_compat; [|reflexivity].
        apply Qmult_lt_0_compat; lra. }
      lra.
  - intros (Ha & Hd & Hw & Hh) Hle.
    pose proof (positive_nonzero d Hd) as Nd.
    pose proof (positive_nonzero h Hh) as Nh.
    rewrite !(SportsWalking_get_spent_calories_ok _ _ _ _ Nd Nh).
    do 2 eexists. do 2 (split; [reflexivity|]).
    unfold SportsWalking_COEFF_1, SportsWalking_COEFF_2, SM_M, M_SEC, M_IN_KM.
    match goal with |- ?c1 <= ?c2 /\ _ =>
      setoid_replace c2
        with (c1 + (a2 - a) * (a2 + a) * w / (h * d)
                   * ((0.65 / 1000 * 0.278) ^ 2 * 100 * 0.029 * 60))
        by (field; split; assumption)
    end.
    split.
    + assert (0 <= (a2 - a) * (a2 + a) * w / (h * d)
                   * ((0.65 / 1000 * 0.278) ^ 2 * 100 * 0.029 * 60)).
      { apply Qmult_le_0_compat; [|discriminate].
        apply Qdiv_nonneg; [|apply Qmult_lt_0_compat; assumption].
        repeat apply Qmult_le_0_compat; lra. }
      lra.
    + intros Hlt.
      assert (0 < (a2 - a) * (a2 + a) * w / (h * d)
                  * ((0.65 / 1000 * 0.278) ^ 2 * 100 * 0.029 * 60)).
      { apply Qmult_lt_0_compat; [|reflexivity].
        apply Qdiv_pos; [|apply Qmult_lt_0_compat; assumption].
        repeat apply Qmult_lt_0_compat; lra. }
      lra.
  - intros (Ha & Hd & Hw & Hl & Hc) Hle.
    pose proof (positive_nonzero d Hd) as Nd.
    rewrite !(Swimming_get_spent_calories_ok _ _ _ _ _ Nd).
    do 2 eexists. do 2 (split; [reflexivity|]).
    split; [apply Qle_refl|reflexivity].
Qed.

Lemma calories_monotone_in_action_witness :
  (exists c1 c2,
      get_spent_calories (SportsWalking 9000 1 75 180) = Ok c1
      /\ get_spent_calories (SportsWalking 9500 1 75 180) = Ok c2
      /\ c1 <= c2 /\ (9000 < 9500 -> c1 < c2))
  /\ (exists c1 c2,
         get_spent_calories (Swimming 720 1 80 25 40) = Ok c1
         /\ get_spent_calories (Swimming 900 1 80 25 40) = Ok c2
         /\ c1 <= c2 /\ c1 == c2).
Proof.
  split.
  - apply (calories_monotone_in_action (SportsWalking 9000 1 75 180) 9500).
    + cbn. repeat split; discriminate.
    + cbn. discriminate.
  - apply (calories_monotone_in_action (Swimming 720 1 80 25 40) 900).
    + cbn. repeat split; discriminate.
    + cbn. discriminate.
Defined.
